(** * restfs: the REST-backed webdav file handle

    A shallow embedding of package [rest] (type [RESTFileSystem], type [File]
    and [newFileInfo]) together with the parts of Go's [os], [io] and
    [errors] packages that the handle relies on.

    - Go's [int64] is [Z] with the wrap-around written out ([wrap64]).
    - [[]byte] and the content of an [io.Reader] are [list byte].
    - A Go [error] is [option error]; a [(v, err)] pair is a sum.
    - The [FileRESTAPI] interface is a type class over the backend's state;
      every call through it is recorded in the world's call log.
    - A method with a pointer receiver takes the [File] and returns the
      updated one.  A run-time fault (nil dereference) is [Panic]. *)

From Stdlib Require Import ZArith Strings.Byte Strings.Ascii Strings.String.
From stdpp Require Import base numbers strings list gmap.

Local Open Scope Z_scope.

(** ** Go errors *)

(** The sentinel values used by the package, and [fmt.Errorf("...: %w", e)]. *)
Inductive error : Type :=
| ErrNotExist                          (* fs.ErrNotExist *)
| ErrExist                             (* fs.ErrExist *)
| ErrInvalid                           (* os.ErrInvalid *)
| ErrClosed                            (* os.ErrClosed *)
| EOF                                  (* io.EOF *)
| EBADF                                (* syscall.EBADF *)
| ErrNew (msg : string)                (* errors.New(msg) *)
| Errorf (ctx : string) (e : error).   (* fmt.Errorf(ctx + ": %w", e) *)

#[global] Instance error_eq_dec : EqDecision error.
Proof. solve_decision. Defined.

(** [errors.Is]: walk the chain of wrapped errors. *)
Fixpoint errors_Is (err target : error) : bool :=
  bool_decide (err = target) ||
  match err with
  | Errorf _ e => errors_Is e target
  | _ => false
  end.

(** [errors.Is(err, target)] on a possibly nil [err]. *)
Definition Is (err : option error) (target : error) : bool :=
  match err with
  | Some e => errors_Is e target
  | None => false
  end.

(** ** Constants of [os] and [io] (linux) *)

Definition O_RDONLY : Z := 0.
Definition O_WRONLY : Z := 1.
Definition O_RDWR   : Z := 2.
Definition O_CREATE : Z := 64.
Definition O_EXCL   : Z := 128.
Definition O_TRUNC  : Z := 512.
Definition O_APPEND : Z := 1024.

Definition SeekStart   : Z := 0.
Definition SeekCurrent : Z := 1.
Definition SeekEnd     : Z := 2.

(** Two's complement wrap-around of [int64] arithmetic. *)
Definition wrap64 (z : Z) : Z := (z + 2 ^ 63) mod 2 ^ 64 - 2 ^ 63.

Definition MaxInt64 : Z := 2 ^ 63 - 1.

(** ** Metadata *)

(** What a backend's [fs.FileInfo] answers. *)
Record apiInfo : Type := mkApiInfo {
  ai_name : string;
  ai_size : Z;
  ai_mode : Z;
  ai_modTime : Z;
  ai_isDir : bool
}.

Record newFileInfo : Type := mkNewFileInfo {
  nfi_name : string;
  nfi_mode : Z;
  nfi_t : Z
}.

(** An [fs.FileInfo] interface value: its dynamic type is either the
    package's [*newFileInfo] or whatever the backend returned. *)
Inductive FileInfo : Type :=
| Synthetic (n : newFileInfo)
| Remote (i : apiInfo).

Definition fi_Name (fi : FileInfo) : string :=
  match fi with Synthetic n => nfi_name n | Remote i => ai_name i end.
Definition fi_Size (fi : FileInfo) : Z :=
  match fi with Synthetic _ => 0 | Remote i => ai_size i end.
Definition fi_Mode (fi : FileInfo) : Z :=
  match fi with Synthetic n => nfi_mode n | Remote i => ai_mode i end.
Definition fi_ModTime (fi : FileInfo) : Z :=
  match fi with Synthetic n => nfi_t n | Remote i => ai_modTime i end.
Definition fi_IsDir (fi : FileInfo) : bool :=
  match fi with Synthetic _ => false | Remote i => ai_isDir i end.

(** ** The backend interface *)

Class FileRESTAPI (B : Type) : Type := {
  api_GetContent  : B -> string -> B * (list byte + error);
  api_Stat        : B -> string -> B * (apiInfo + error);
  api_GetChildren : B -> string -> B * (list apiInfo + error);
  api_MkDir       : B -> string -> Z -> B * option error;
  api_Update      : B -> string -> list byte -> B * option error;
  api_NewFile     : B -> string -> list byte -> B * option error;
  api_RemoveAll   : B -> string -> B * option error;
  api_Rename      : B -> string -> string -> B * option error
}.

(** One entry of the call log per call through the interface. *)
Inductive Call : Type :=
| CGetContent (name : string)
| CStat (name : string)
| CGetChildren (name : string)
| CMkDir (name : string) (perm : Z)
| CUpdate (name : string) (content : list byte)
| CNewFile (name : string) (content : list byte)
| CRemoveAll (name : string)
| CRename (oldname newname : string).

Definition is_GetContent (c : Call) : bool :=
  match c with CGetContent _ => true | _ => false end.
Definition is_Stat (c : Call) : bool :=
  match c with CStat _ => true | _ => false end.
Definition is_Update (c : Call) : bool :=
  match c with CUpdate _ _ => true | _ => false end.
Definition is_NewFile (c : Call) : bool :=
  match c with CNewFile _ _ => true | _ => false end.

(** Number of log entries of one kind. *)
Definition count (p : Call -> bool) (l : list Call) : nat :=
  length (List.filter p l).

(** ** Local staging files: the part of [os.File] the handle uses *)

(** An open [*os.File] on a staging file.  [os.CreateTemp] gives every
    handle a path of its own, so the bytes on disk are kept with the
    descriptor.  A nil [*os.File] is [None] at the use site. *)
Record os_File : Type := mkOsFile {
  of_name : string;       (* the path, as [Name()] reports it *)
  of_data : list byte;    (* the bytes on disk *)
  of_off : Z;             (* the descriptor's offset *)
  of_flag : Z;            (* the flags it was opened with *)
  of_closed : bool;       (* [Close] has been called *)
  of_removed : bool       (* the path has been unlinked *)
}.

Definition readable (fl : Z) : bool :=
  (Z.land fl 3 =? O_RDONLY) || (Z.land fl 3 =? O_RDWR).
Definition writable (fl : Z) : bool :=
  (Z.land fl 3 =? O_WRONLY) || (Z.land fl 3 =? O_RDWR).

Definition blen (l : list byte) : Z := Z.of_nat (length l).

(** [os.File.Read] into a buffer of [n] bytes. *)
Definition os_File_Read (t : os_File) (n : nat)
  : os_File * list byte * option error :=
  if of_closed t then (t, [], Some (Errorf "read" ErrClosed))
  else if (n =? 0)%nat then (t, [], None)
  else if negb (readable (of_flag t)) then (t, [], Some (Errorf "read" EBADF))
  else
    let bs := take n (drop (Z.to_nat (of_off t)) (of_data t)) in
    match bs with
    | [] => (t, [], Some EOF)
    | _ => (mkOsFile (of_name t) (of_data t) (of_off t + blen bs)
              (of_flag t) (of_closed t) (of_removed t), bs, None)
    end.

(** The bytes on disk after [p] is written at offset [off]; a write past
    the end leaves a hole of zero bytes. *)
Definition write_at (data : list byte) (off : Z) (p : list byte) : list byte :=
  let o := Z.to_nat off in
  take o data ++ replicate (o - length data)%nat x00 ++ p
    ++ drop (o + length p)%nat data.

(** [os.File.Write]; with [O_APPEND] every write goes to the end. *)
Definition os_File_Write (t : os_File) (p : list byte)
  : os_File * Z * option error :=
  if of_closed t then (t, 0, Some (Errorf "write" ErrClosed))
  else if negb (writable (of_flag t)) then (t, 0, Some (Errorf "write" EBADF))
  else
    let off := if Z.land (of_flag t) O_APPEND >? 0
               then blen (of_data t) else of_off t in
    (mkOsFile (of_name t) (write_at (of_data t) off p) (off + blen p)
       (of_flag t) (of_closed t) (of_removed t), blen p, None).

(** [os.File.Seek]: [(0, err)] on failure. *)
Definition os_File_Seek (t : os_File) (offset whence : Z)
  : os_File * Z * option error :=
  if of_closed t then (t, 0, Some (Errorf "seek" ErrClosed))
  else
    let npos :=
      if whence =? SeekStart then offset
      else if whence =? SeekCurrent then of_off t + offset
      else if whence =? SeekEnd then blen (of_data t) + offset
      else -1 in
    if (npos <? 0) || (MaxInt64 <? npos)
    then (t, 0, Some (Errorf "seek" ErrInvalid))
    else (mkOsFile (of_name t) (of_data t) npos
            (of_flag t) (of_closed t) (of_removed t), npos, None).

(** [os.File.Close]: [ErrInvalid] on a nil receiver, an error the
    second time. *)
Definition os_File_Close (tf : option os_File)
  : option os_File * option error :=
  match tf with
  | None => (None, Some ErrInvalid)
  | Some t =>
    if of_closed t then (Some t, Some (Errorf "close" ErrClosed))
    else (Some (mkOsFile (of_name t) (of_data t) (of_off t)
                  (of_flag t) true (of_removed t)), None)
  end.

(** [os.RemoveAll(path)] on the staging file's path. *)
Definition os_RemoveAll (t : os_File) : os_File :=
  mkOsFile (of_name t) (of_data t) (of_off t) (of_flag t) (of_closed t) true.

(** [os.Open(path)] / [os.OpenFile(path, O_RDONLY, 0)] on the staging
    file's path: a reader over the bytes on disk. *)
Definition os_Open (t : os_File) : list byte + error :=
  if of_removed t then inr (Errorf "open" ErrNotExist) else inl (of_data t).

(** [os.OpenFile(path, flag, perm)] on a staging file that exists with
    bytes [data]: [O_CREATE|O_EXCL] refuses an existing file, [O_TRUNC]
    empties it; [perm] only matters when a file is created. *)
Definition os_OpenFile (path : string) (data : list byte) (fl perm : Z)
  : os_File + error :=
  if (Z.land fl O_CREATE >? 0) && (Z.land fl O_EXCL >? 0)
  then inr (Errorf "open" ErrExist)
  else inl (mkOsFile path (if Z.land fl O_TRUNC >? 0 then [] else data)
              0 fl false false).

(** [strings.ReplaceAll(s, "/", "_")]. *)
Fixpoint ReplaceAll_slash (s : string) : string :=
  match s with
  | EmptyString => EmptyString
  | String c r =>
    String (if Ascii.eqb c "/"%char then "_"%char else c) (ReplaceAll_slash r)
  end.

(** ** The world a handle runs in, and the monad that threads it *)

Record World (B : Type) : Type := mkWorld {
  backend : B;                    (* the state behind the [FileRESTAPI] *)
  calls : list Call;              (* calls made through the interface *)
  now : Z;                        (* what [time.Now()] answers *)
  mkdirAll_err : option error;    (* outcome of [os.MkdirAll("tmp", 0o777)] *)
  createTemp_err : option error   (* outcome of [os.CreateTemp("tmp", ...)] *)
}.
Arguments mkWorld {B}.
Arguments backend {B}.
Arguments calls {B}.
Arguments now {B}.
Arguments mkdirAll_err {B}.
Arguments createTemp_err {B}.

Inductive outcome (A : Type) : Type :=
| Ret (a : A)
| Panic (msg : string).
Arguments Ret {A}.
Arguments Panic {A}.

Definition M (B A : Type) : Type := World B -> outcome A * World B.

Definition ret {B A} (a : A) : M B A := fun w => (Ret a, w).

Definition bind {B A C} (m : M B A) (k : A -> M B C) : M B C :=
  fun w =>
    match m w with
    | (Ret a, w') => k a w'
    | (Panic msg, w') => (Panic msg, w')
    end.

Definition panic {B A} (msg : string) : M B A := fun w => (Panic msg, w).

Notation "'let*' x ':=' m 'in' k" := (bind m (fun x => k))
  (at level 10, x pattern, m at level 100, k at level 200, only parsing).

(** A call through the interface: run it on the backend, log it. *)
Definition invoke {B R} (c : Call) (op : B -> B * R) : M B R :=
  fun w =>
    let (b', r) := op (backend w) in
    (Ret r, mkWorld b' (calls w ++ [c]) (now w)
              (mkdirAll_err w) (createTemp_err w)).

(** ** type File *)

(** The fields [mu] and [api] are the sequential execution and the
    world's backend. *)
Record File : Type := mkFile {
  isNew : bool;
  tf : option os_File;
  pos : Z;
  name : string;
  flag : Z;
  perm : Z
}.

Definition set_tf (f : File) (t : option os_File) : File :=
  mkFile (isNew f) t (pos f) (name f) (flag f) (perm f).
Definition set_pos (f : File) (p : Z) : File :=
  mkFile (isNew f) (tf f) p (name f) (flag f) (perm f).

Section Api.
Context {B : Type} `{!FileRESTAPI B}.

Definition GetContent (name : string) : M B (list byte + error) :=
  invoke (CGetContent name) (fun b => api_GetContent b name).
Definition API_Stat (name : string) : M B (apiInfo + error) :=
  invoke (CStat name) (fun b => api_Stat b name).
Definition GetChildren (name : string) : M B (list apiInfo + error) :=
  invoke (CGetChildren name) (fun b => api_GetChildren b name).
Definition MkDir (name : string) (perm : Z) : M B (option error) :=
  invoke (CMkDir name perm) (fun b => api_MkDir b name perm).
Definition Update (name : string) (rc : list byte) : M B (option error) :=
  invoke (CUpdate name rc) (fun b => api_Update b name rc).
Definition NewFile (name : string) (rc : list byte) : M B (option error) :=
  invoke (CNewFile name rc) (fun b => api_NewFile b name rc).
Definition API_RemoveAll (name : string) : M B (option error) :=
  invoke (CRemoveAll name) (fun b => api_RemoveAll b name).
Definition API_Rename (oldname newname : string) : M B (option error) :=
  invoke (CRename oldname newname) (fun b => api_Rename b oldname newname).

Definition time_Now : M B Z := fun w => (Ret (now w), w).
Definition os_MkdirAll : M B (option error) :=
  fun w => (Ret (mkdirAll_err w), w).

(** [os.CreateTemp("tmp", pattern)]: a new, empty file; the random part
    of its name is left out. *)
Definition os_CreateTemp (pattern : string) : M B (string + error) :=
  fun w =>
    (Ret match createTemp_err w with
         | Some e => inr e
         | None => inl ("tmp/" +:+ pattern)
         end, w).

(** Dereferencing a [*os.File], as [os.File.Name] does with its
    receiver: a nil pointer faults. *)
Definition deref (tf : option os_File) : M B os_File :=
  match tf with
  | Some t => ret t
  | None => panic "invalid memory address or nil pointer dereference"
  end.

(** ** RESTFileSystem *)

Definition OpenFile (name : string) (flag perm : Z) : M B (File + error) :=
  let* r := API_Stat name in
  let err := match r with inr e => Some e | inl _ => None end in
  let exists_ := negb (Is err ErrNotExist) in
  match err with
  | Some e =>
    if exists_ || (Z.land flag O_CREATE =? 0)
    then ret (inr (Errorf "error while opening file" e))
    else ret (inl (mkFile (negb exists_) None 0 name flag perm))
  | None => ret (inl (mkFile (negb exists_) None 0 name flag perm))
  end.

Definition Open (name : string) : M B (File + error) :=
  OpenFile name O_RDONLY 0.

(** [RESTFileSystem.ReadDir]; an [fs.DirEntry] is the view of a
    [fs.FileInfo]. *)
Definition FS_ReadDir (name : string) : M B (list apiInfo + error) :=
  let* r := GetChildren name in
  match r with
  | inr err => ret (inr (Errorf "cannot readdir" err))
  | inl fileInfos => ret (inl fileInfos)
  end.

Definition Mkdir (name : string) (perm : Z) : M B (option error) :=
  MkDir name perm.
Definition RemoveAll (name : string) : M B (option error) :=
  API_RemoveAll name.
Definition Rename (oldName newName : string) : M B (option error) :=
  API_Rename oldName newName.
Definition FS_Stat (name : string) : M B (apiInfo + error) :=
  API_Stat name.
End Api.

(** ** Methods of [File] *)

Section Handle.
Context {B : Type} `{!FileRESTAPI B}.

Definition Readdir (f : File) (count : Z) : M B (list apiInfo + error) :=
  GetChildren (name f).

Definition ReadDir (f : File) (n : Z) : M B (list apiInfo + error) :=
  Readdir f n.

(** [File.stat]: nil when the backend fails (the error goes to stderr). *)
Definition stat (f : File) : M B (option apiInfo) :=
  let* r := API_Stat (name f) in
  match r with
  | inr _ => ret None
  | inl s => ret (Some s)
  end.

Definition Size (f : File) : M B Z :=
  let* fi := stat f in
  match fi with
  | None => ret 0
  | Some i => ret (ai_size i)
  end.

Definition Seek (f : File) (offset whence : Z)
  : M B (File * (Z * option error)) :=
  match tf f with
  | Some t =>
    let '(t', r, err) := os_File_Seek t offset whence in
    ret (set_pos (set_tf f (Some t')) r, (r, err))
  | None =>
    let* npos :=
      (if whence =? SeekStart then ret offset
       else if whence =? SeekCurrent then ret (wrap64 (pos f + offset))
       else if whence =? SeekEnd then
         let* sz := Size f in ret (wrap64 (sz + offset))
       else ret (-1)) in
    if npos <? 0 then ret (f, (0, Some ErrInvalid))
    else ret (set_pos f npos, (npos, None))
  end.

(** The remote content to stage: fetched unless the open truncates or
    the object is new. *)
Definition stage_content (f : File) : M B (list byte + error) :=
  if (Z.land (flag f) O_TRUNC =? 0) && negb (isNew f)
  then GetContent (name f)
  else ret (inl []).

Definition tempFile (f : File) : M B (File * (os_File + error)) :=
  match tf f with
  | Some t => ret (f, inl t)
  | None =>
    let* e := os_MkdirAll in
    match e with
    | Some err => ret (f, inr (Errorf "cannot create tmp dir" err))
    | None =>
      let* c := os_CreateTemp (ReplaceAll_slash (name f)) in
      match c with
      | inr err => ret (f, inr (Errorf "cannot create tmp file" err))
      | inl path =>
        let* rc := stage_content f in
        match rc with
        | inr err => ret (f, inr err)
        | inl content =>
          (* io.Copy(tf, rc), then tf.Close() and the reopen *)
          let size := blen content in
          let r := os_OpenFile path content (flag f) (perm f) in
          let f1 := set_tf f match r with inl t => Some t | inr _ => None end in
          let f2 := if Z.land (flag f) O_APPEND >? 0
                    then set_pos f1 size else f1 in
          ret (f2, r)
        end
      end
    end
  end.

(** [Read] into a buffer of [n] bytes: the count, the bytes put into the
    buffer, the error. *)
Definition Read (f : File) (n : nat)
  : M B (File * (Z * list byte * option error)) :=
  let* (f, r) := tempFile f in
  match r with
  | inr err => ret (f, (-1, [], Some err))
  | inl t =>
    let '(t', bs, err) := os_File_Read t n in
    let f := set_tf f (Some t') in
    match err with
    | Some e => ret (f, (blen bs, bs, Some e))
    | None => ret (set_pos f (wrap64 (pos f + blen bs)), (blen bs, bs, None))
    end
  end.

Definition Write (f : File) (p : list byte)
  : M B (File * (Z * option error)) :=
  let* (f, r) := tempFile f in
  match r with
  | inr err => ret (f, (-1, Some err))
  | inl t =>
    let '(t', n, err) := os_File_Write t p in
    let f := set_tf f (Some t') in
    match err with
    | Some e => ret (f, (n, Some e))
    | None => ret (set_pos f (wrap64 (pos f + n)), (n, None))
    end
  end.

(** The body of [Close], before the deferred calls run. *)
Definition Close_body (file : File) : M B (File * option error) :=
  if isNew file then
    match match tf file with
          | None => inl []              (* io.NopCloser over no bytes *)
          | Some t => os_Open t
          end with
    | inr err => ret (file, Some (Errorf "cannot open tempfile" err))
    | inl rc =>
      let* err := NewFile (name file) rc in
      match err with
      | Some e => ret (file, Some e)
      | None =>
        (* rc.Close() succeeds *)
        let '(tf', err) := os_File_Close (tf file) in
        let file := set_tf file tf' in
        match err with
        | Some e => ret (file, Some (Errorf "cannot close" e))
        | None => ret (file, None)
        end
      end
    end
  else if Z.land (flag file) (Z.lor O_RDWR O_WRONLY) >? 0 then
    let* t := deref (tf file) in          (* file.tf.Name() *)
    match os_Open t with
    | inr err => ret (file, Some err)
    | inl readFile =>
      let* _ := (if isNew file then NewFile (name file) readFile
                 else Update (name file) readFile) in
      ret (file, None)
    end
  else ret (file, None).

(** The deferred [file.tf.Close()] and [os.RemoveAll(file.tf.Name())]:
    registered only when [file.tf != nil] on entry. *)
Definition Close_deferred (entry file : File) : File :=
  match tf entry with
  | None => file
  | Some _ =>
    set_tf file
      match os_File_Close (tf file) with
      | (Some t, _) => Some (os_RemoveAll t)
      | (None, _) => None
      end
  end.

(** [Close]: a fault can only happen with [file.tf == nil], when nothing
    was deferred. *)
Definition Close (file : File) : M B (File * option error) :=
  let* (file', err) := Close_body file in
  ret (Close_deferred file file', err).

Definition Stat (f : File) : M B (FileInfo + error) :=
  if isNew f && (Z.land (flag f) O_CREATE >? 0) then
    let* t := time_Now in
    ret (inl (Synthetic (mkNewFileInfo (name f) (perm f) t)))
  else
    let* r := API_Stat (name f) in
    match r with
    | inl i => ret (inl (Remote i))
    | inr e => ret (inr e)
    end.
End Handle.

(** ** An in-memory backend

    A flat object store after the repository's [MockAPI], with switches
    that make [Update] or [NewFile] fail. *)

Record MemAPI : Type := mkMemAPI {
  objs : gmap string (list byte);
  update_err : option error;
  newfile_err : option error
}.

Definition mem_info (name : string) (c : list byte) : apiInfo :=
  mkApiInfo name (blen c) 420 0 false.

Definition mem_put (m : MemAPI) (name : string) (c : list byte) : MemAPI :=
  mkMemAPI (<[name := c]> (objs m)) (update_err m) (newfile_err m).

#[global] Instance MemAPI_FileRESTAPI : FileRESTAPI MemAPI := {
  api_GetContent m name :=
    (m, match objs m !! name with
        | Some c => inl c
        | None => inr (Errorf "open" ErrNotExist)
        end);
  api_Stat m name :=
    (m, match objs m !! name with
        | Some c => inl (mem_info name c)
        | None => inr (Errorf "stat" ErrNotExist)
        end);
  api_GetChildren m name :=
    (m, inl ((fun kv => mem_info kv.1 kv.2) <$> map_to_list (objs m)));
  api_MkDir m name perm := (m, None);
  api_Update m name rc :=
    match update_err m with
    | Some e => (m, Some e)
    | None =>
      match objs m !! name with
      | Some _ => (mem_put m name rc, None)           (* O_WRONLY|O_TRUNC *)
      | None => (m, Some (Errorf "open" ErrNotExist))
      end
    end;
  api_NewFile m name rc :=
    match newfile_err m with
    | Some e => (m, Some e)
    | None =>
      match objs m !! name with
      | Some c => (mem_put m name (write_at c 0 rc), None)  (* no O_TRUNC *)
      | None => (mem_put m name rc, None)
      end
    end;
  api_RemoveAll m name :=
    (mkMemAPI (delete name (objs m)) (update_err m) (newfile_err m), None);
  api_Rename m oldname newname :=
    match objs m !! oldname with
    | Some c =>
      (mkMemAPI (<[newname := c]> (delete oldname (objs m)))
         (update_err m) (newfile_err m), None)
    | None => (m, Some (Errorf "rename" ErrNotExist))
    end
}.

Definition bytes (s : string) : list byte := list_byte_of_string s.

(** A world over the in-memory backend with nothing logged yet and a
    healthy staging directory. *)
Definition mem_world (m : MemAPI) : World MemAPI := mkWorld m [] 1000 None None.

Definition store0 : MemAPI :=
  mkMemAPI {[ "/b.txt" := bytes "world" ]} None None.

(** ** Sessions run on the in-memory backend *)

(** Run a session on the in-memory backend [m0]. *)
Definition run {A} (m : M MemAPI A) (m0 : MemAPI)
  : outcome A * World MemAPI := m (mem_world m0).

(** The bytes the backend holds under [name] at the end of a run. *)
Definition stored {A} (r : outcome A * World MemAPI) (name : string)
  : option (list byte) := objs (backend r.2) !! name.

(** A backend whose [Update] is failing. *)
Definition store_down : MemAPI :=
  mkMemAPI (objs store0) (Some (ErrNew "backend down")) None.

(** Open, then hand the handle to [k]; [None] when the open fails. *)
Definition with_open {B A} `{!FileRESTAPI B} (name : string) (flag perm : Z)
    (k : File -> M B A) : M B (option A) :=
  let* r := OpenFile name flag perm in
  match r with
  | inr _ => ret None
  | inl f => let* a := k f in ret (Some a)
  end.

(** Create-open, close at once. *)
Definition create_close : M MemAPI (option (option error)) :=
  with_open "/a.txt" (Z.lor O_WRONLY O_CREATE) 420
    (fun f => let* (_, e) := Close f in ret e).

(** Write-open of an existing object, one write, close. *)
Definition write_close : M MemAPI (option (Z * option error * option error)) :=
  with_open "/b.txt" O_RDWR 420
    (fun f => let* (f, wr) := Write f (bytes "!") in
              let* (_, e) := Close f in ret (wr, e)).

(** Write-open of an existing object, close at once. *)
Definition open_close : M MemAPI (option (option error)) :=
  with_open "/b.txt" O_WRONLY 420
    (fun f => let* (_, e) := Close f in ret e).

(** Read-open of an existing object, seek to 2, read 3 bytes. *)
Definition seek_read : M MemAPI (option (Z * list byte * Z)) :=
  with_open "/b.txt" O_RDONLY 0
    (fun f => let* (f, sk) := Seek f 2 SeekStart in
              let* (f, rd) := Read f 3 in
              ret (sk.1, rd.1.2, pos f)).

(** Create-open, write, close, then [Stat] on the closed handle next to
    the facade's [Stat] of the same name. *)
Definition create_write_close_stat
  : M MemAPI (option (option error * (FileInfo + error) * (apiInfo + error))) :=
  with_open "/a.txt" (Z.lor (Z.lor O_RDWR O_CREATE) O_TRUNC) 420
    (fun f => let* (f, _) := Write f (bytes "hello") in
              let* (f, e) := Close f in
              let* st := Stat f in
              let* real := FS_Stat "/a.txt" in
              ret (e, st, real)).

(** ** Concrete handles and worlds *)

Definition world0 : World MemAPI := mem_world store0.

(** The world once [OpenFile] has probed [name]. *)
Definition probed (name : string) : World MemAPI :=
  mkWorld store0 [CStat name] 1000 None None.

(** A read-only handle on the existing ["/b.txt"]. *)
Definition handle_b : File := mkFile false None 0 "/b.txt" O_RDONLY 0.

(** A truncating write handle on the existing ["/b.txt"], before and after
    [Write] of ["!"]. *)
Definition trunc_flag : Z := Z.lor O_WRONLY O_TRUNC.
Definition handle_trunc : File := mkFile false None 0 "/b.txt" trunc_flag 420.
Definition handle_trunc_written : File :=
  mkFile false
    (Some (mkOsFile "tmp/_b.txt" (bytes "!") 1 trunc_flag false false))
    1 "/b.txt" trunc_flag 420.

(** A create handle on the absent ["/a.txt"] after [Write] of ["hello"],
    and what [Close] leaves of it. *)
Definition create_flag : Z := Z.lor O_WRONLY O_CREATE.
Definition handle_a_written : File :=
  mkFile true
    (Some (mkOsFile "tmp/_a.txt" (bytes "hello") 5 create_flag false false))
    5 "/a.txt" create_flag 420.
Definition handle_a_closed : File :=
  mkFile true
    (Some (mkOsFile "tmp/_a.txt" (bytes "hello") 5 create_flag true true))
    5 "/a.txt" create_flag 420.
Definition world_a_closed : World MemAPI :=
  mkWorld (mem_put store0 "/a.txt" (bytes "hello"))
    [CStat "/a.txt"; CNewFile "/a.txt" (bytes "hello")] 1000 None None.

(** ** The arithmetic of an unmaterialized [Seek], as specified *)

(** Start: the offset; Current: position plus offset; End: remote size
    plus offset; sums are [int64] sums. *)
Definition seek_target (p offset whence size : Z) : Z :=
  if whence =? SeekStart then offset
  else if whence =? SeekCurrent then wrap64 (p + offset)
  else if whence =? SeekEnd then wrap64 (size + offset)
  else -1.

(** The size that one metadata probe of [name] reports, as [File.Size]
    reads it: zero when the probe fails. *)
Definition probed_size {B} `{!FileRESTAPI B} (b : B) (name : string) : Z :=
  match (api_Stat b name).2 with
  | inl i => ai_size i
  | inr _ => 0
  end.

(** The backend calls a [Seek] is allowed: one probe for [SeekEnd]. *)
Definition seek_probes (whence : Z) (name : string) : list Call :=
  if whence =? SeekEnd then [CStat name] else [].

(** ** More concrete handles, worlds and a backend that is down *)

(** ["/b.txt"] staged read-write, and the handle that holds it. *)
Definition staged_rw : os_File :=
  mkOsFile "tmp/_b.txt" (bytes "world") 0 O_RDWR false false.
Definition handle_rw : File :=
  mkFile false (Some staged_rw) 0 "/b.txt" O_RDWR 420.

(** [handle_rw] once sought to offset 2. *)
Definition handle_rw_at2 : File :=
  mkFile false
    (Some (mkOsFile "tmp/_b.txt" (bytes "world") 2 O_RDWR false false))
    2 "/b.txt" O_RDWR 420.

(** ["/b.txt"] staged read-only. *)
Definition staged_ro : os_File :=
  mkOsFile "tmp/_b.txt" (bytes "world") 0 O_RDONLY false false.
Definition handle_ro : File :=
  mkFile false (Some staged_ro) 0 "/b.txt" O_RDONLY 0.

(** The staging file of [handle_a_written]. *)
Definition staged_a : os_File :=
  mkOsFile "tmp/_a.txt" (bytes "hello") 5 create_flag false false.

(** Fresh handles: read-write and appending on ["/b.txt"], a created
    ["/a.txt"] before any write and one opened exclusively, and a handle
    whose object has gone since the open. *)
Definition handle_b_rw : File := mkFile false None 0 "/b.txt" O_RDWR 420.
Definition append_flag : Z := Z.lor O_WRONLY O_APPEND.
Definition handle_b_append : File :=
  mkFile false None 0 "/b.txt" append_flag 420.
Definition excl_flag : Z := Z.lor (Z.lor O_WRONLY O_CREATE) O_EXCL.
Definition handle_excl : File := mkFile true None 0 "/a.txt" excl_flag 420.
Definition handle_gone : File := mkFile false None 0 "/gone.txt" O_RDONLY 0.

(** A world whose staging directory cannot be made. *)
Definition world_nodir : World MemAPI :=
  mkWorld store0 [] 1000 (Some (ErrNew "read-only file system")) None.

(** A backend that refuses every call with the same error. *)
Record DownAPI : Type := mkDownAPI { down_err : error }.

#[global] Instance DownAPI_FileRESTAPI : FileRESTAPI DownAPI := {
  api_GetContent d name := (d, inr (down_err d));
  api_Stat d name := (d, inr (down_err d));
  api_GetChildren d name := (d, inr (down_err d));
  api_MkDir d name perm := (d, Some (down_err d));
  api_Update d name rc := (d, Some (down_err d));
  api_NewFile d name rc := (d, Some (down_err d));
  api_RemoveAll d name := (d, Some (down_err d));
  api_Rename d oldname newname := (d, Some (down_err d))
}.

Definition world_down : World DownAPI :=
  mkWorld (mkDownAPI (ErrNew "connection refused")) [] 1000 None None.

(** ** Position tracking *)

(** The handle's [pos] agrees with the offset of its staging file (or
    there is no staging file yet). *)
Definition in_sync (f : File) : bool :=
  match tf f with
  | Some t => pos f =? of_off t
  | None => true
  end.

(** Write access as [Close] tests it. *)
Definition write_access (fl : Z) : bool :=
  Z.land fl (Z.lor O_RDWR O_WRONLY) >? 0.

(** The characters of a string. *)
Definition chars (s : string) : list ascii := list_ascii_of_string s.

(** * Properties *)

(** ** Arithmetic and flags *)

Lemma wrap64_small (z : Z) : - 2 ^ 63 <= z <= MaxInt64 -> wrap64 z = z.
Proof.
  unfold wrap64, MaxInt64. intros Hz.
  rewrite Z.mod_small by lia. lia.
Qed.

Lemma land_mask_nonneg (fl m : Z) : 0 <= m -> 0 <= Z.land fl m.
Proof. intros Hm. apply Z.land_nonneg. by right. Qed.

Lemma flag_set (fl m : Z) :
  0 <= m -> Z.land fl m <> 0 -> (Z.land fl m >? 0) = true.
Proof.
  intros Hm Hne. pose proof (land_mask_nonneg fl m Hm). apply Z.gtb_lt. lia.
Qed.

Lemma writable_access (fl : Z) :
  writable fl = true -> (Z.land fl (Z.lor O_RDWR O_WRONLY) >? 0) = true.
Proof.
  unfold writable, O_RDWR, O_WRONLY. change (Z.lor 2 1) with 3.
  intros H. apply orb_true_iff in H as [H | H]; apply Z.eqb_eq in H;
    rewrite H; reflexivity.
Qed.

(** Within [int64] the sums of [seek_target] are the plain sums. *)
Lemma seek_target_exact (p offset whence size : Z) :
  - 2 ^ 63 <= p + offset <= MaxInt64 ->
  - 2 ^ 63 <= size + offset <= MaxInt64 ->
  (whence = SeekStart -> seek_target p offset whence size = offset) /\
  (whence = SeekCurrent -> seek_target p offset whence size = p + offset) /\
  (whence = SeekEnd -> seek_target p offset whence size = size + offset).
Proof.
  intros Hp Hs. unfold seek_target.
  repeat split; intros ->; simpl; [done | ..]; by apply wrap64_small.
Qed.

(** ** Errors *)

Lemma errors_Is_Errorf (ctx : string) (e target : error) :
  errors_Is e target = true -> errors_Is (Errorf ctx e) target = true.
Proof. intros H. simpl. rewrite H. apply orb_true_r. Qed.

(** ** The call log *)

Lemma count_app (p : Call -> bool) (l k : list Call) :
  count p (l ++ k) = (count p l + count p k)%nat.
Proof. unfold count. rewrite List.filter_app. apply length_app. Qed.

Section Properties.
Context {B : Type} `{!FileRESTAPI B}.

Implicit Types (f : File) (w : World B).

(** *** Seek *)

(** C6. On a handle without a staging file, [Seek] computes the new
    position arithmetically (Start: offset; Current: position+offset;
    End: remote size+offset, the size coming from a single [Stat] probe),
    answers [ErrInvalid] and leaves the handle alone when that position
    is negative, and neither fetches content nor creates the staging
    file. *)
Theorem Seek_unmaterialized f (offset whence : Z) w (Htf : tf f = None) :
  let npos := seek_target (pos f) offset whence
                (probed_size (backend w) (name f)) in
  exists f' r w',
    Seek f offset whence w = (Ret (f', r), w') /\
    (f', r) = (if npos <? 0 then (f, (0, Some ErrInvalid))
               else (set_pos f npos, (npos, None))) /\
    tf f' = None /\
    calls w' = calls w ++ seek_probes whence (name f) /\
    count is_GetContent (calls w') = count is_GetContent (calls w).
Proof.
  intros npos. subst npos.
  unfold Seek, seek_target, seek_probes, probed_size. rewrite Htf.
  destruct (whence =? SeekStart) eqn:E0; [|
  destruct (whence =? SeekCurrent) eqn:E1; [|
  destruct (whence =? SeekEnd) eqn:E2]].
  - apply Z.eqb_eq in E0. subst whence.
    change (SeekStart =? SeekEnd) with false.
    unfold bind, ret.
    destruct (offset <? 0); do 3 eexists;
      (split; [reflexivity|]); (split; [reflexivity|]);
      rewrite app_nil_r; auto.
  - apply Z.eqb_eq in E1. subst whence.
    change (SeekCurrent =? SeekEnd) with false.
    unfold bind, ret.
    destruct (wrap64 (pos f + offset) <? 0); do 3 eexists;
      (split; [reflexivity|]); (split; [reflexivity|]);
      rewrite app_nil_r; auto.
  - unfold bind, ret, Size, stat, API_Stat, invoke, bind, ret.
    destruct (api_Stat (backend w) (name f)) as [b' [i | e]]; simpl;
      match goal with
      | |- context [?x <? 0] => destruct (x <? 0)
      end; do 3 eexists;
      (split; [reflexivity|]); (split; [reflexivity|]);
      simpl; rewrite count_app; (split; [done|]); (split; [done|]);
      unfold count; simpl; lia.
  - unfold bind, ret. simpl.
    do 3 eexists; (split; [reflexivity|]); (split; [reflexivity|]).
    rewrite app_nil_r; auto.
Qed.

(** *** Open *)

(** What [OpenFile] does once the probe's answer is known. *)
Lemma OpenFile_probe (nm : string) (fl pm : Z) w :
  exists w',
    calls w' = calls w ++ [CStat nm] /\ now w' = now w /\
    mkdirAll_err w' = mkdirAll_err w /\
    createTemp_err w' = createTemp_err w /\
    OpenFile nm fl pm w =
      (Ret match (api_Stat (backend w) nm).2 with
           | inl _ => inl (mkFile false None 0 nm fl pm)
           | inr e =>
             if negb (errors_Is e ErrNotExist) || (Z.land fl O_CREATE =? 0)
             then inr (Errorf "error while opening file" e)
             else inl (mkFile (negb (negb (errors_Is e ErrNotExist)))
                         None 0 nm fl pm)
           end, w').
Proof.
  unfold OpenFile, API_Stat, invoke, bind, ret.
  destruct (api_Stat (backend w) nm) as [b' [i | e]]; simpl;
    exists (mkWorld b' (calls w ++ [CStat nm]) (now w)
              (mkdirAll_err w) (createTemp_err w));
    repeat split.
  by destruct (negb (errors_Is e ErrNotExist) || (Z.land fl O_CREATE =? 0)).
Qed.

(** C8. When the backend's [Stat] reports not-found and the create flag
    is absent, [OpenFile] returns an error, and [errors.Is] still finds
    [fs.ErrNotExist] in the wrapped error. *)
Theorem OpenFile_not_found (nm : string) (fl pm : Z) w (e : error)
    (Hprobe : (api_Stat (backend w) nm).2 = inr e)
    (Hnf : errors_Is e ErrNotExist = true)
    (Hflag : Z.land fl O_CREATE = 0) :
  exists err w',
    OpenFile nm fl pm w = (Ret (inr err), w') /\
    err = Errorf "error while opening file" e /\
    errors_Is err ErrNotExist = true.
Proof.
  destruct (OpenFile_probe nm fl pm w) as (w' & _ & _ & _ & _ & Hopen).
  rewrite Hprobe, Hnf, Hflag in Hopen. simpl in Hopen.
  exists (Errorf "error while opening file" e), w'.
  split; [exact Hopen|]. split; [reflexivity|].
  by apply errors_Is_Errorf.
Qed.

(** *** Stat *)

(** C7. When the backend reports not-found and the open asks for
    creation, [OpenFile] followed at once by [Stat] answers with
    synthetic metadata: size 0, not a directory, the handle's name, the
    requested permission.  For any handle whose object existed at open
    or whose flags lack create, [Stat] is the backend's answer, obtained
    by one [Stat] call. *)
Theorem Stat_after_create_open (nm : string) (fl pm : Z) w (e : error)
    (Hprobe : (api_Stat (backend w) nm).2 = inr e)
    (Hnf : errors_Is e ErrNotExist = true)
    (Hflag : Z.land fl O_CREATE <> 0) :
  (exists f w1 fi,
      OpenFile nm fl pm w = (Ret (inl f), w1) /\
      Stat f w1 = (Ret (inl fi), w1) /\
      fi = Synthetic (mkNewFileInfo nm pm (now w)) /\
      fi_Size fi = 0 /\ fi_IsDir fi = false /\
      fi_Name fi = nm /\ fi_Mode fi = pm) /\
  (forall g v,
      isNew g = false \/ Z.land (flag g) O_CREATE = 0 ->
      (Stat g v).1 =
        Ret match (api_Stat (backend v) (name g)).2 with
            | inl i => inl (Remote i)
            | inr e' => inr e'
            end /\
      calls (Stat g v).2 = calls v ++ [CStat (name g)]).
Proof.
  split.
  - destruct (OpenFile_probe nm fl pm w) as (w' & _ & Hnow & _ & _ & Hopen).
    rewrite Hprobe, Hnf in Hopen.
    apply Z.eqb_neq in Hflag as Hflag'. rewrite Hflag' in Hopen.
    simpl in Hopen.
    eexists _, w', _. split; [exact Hopen|].
    unfold Stat. simpl. rewrite (flag_set fl O_CREATE) by done.
    unfold bind, time_Now, ret. rewrite Hnow. by repeat split.
  - intros g v Hg.
    assert (isNew g && (Z.land (flag g) O_CREATE >? 0) = false) as Hsyn.
    { destruct Hg as [-> | ->]; [done | apply andb_false_r]. }
    unfold Stat. rewrite Hsyn.
    unfold bind, API_Stat, invoke, ret.
    destruct (api_Stat (backend v) (name g)) as [b' [i | e']]; by simpl.
Qed.

(** *** Staging and Close *)

(** Staging keeps the tracked position unless the open appends, and the
    staging file it opens is at offset 0 whatever that position is. *)
Lemma tempFile_offset f w f' (t : os_File) w'
    (Htf : tf f = None)
    (Hrun : tempFile f w = (Ret (f', inl t), w')) :
  of_off t = 0 /\ tf f' = Some t /\
  (Z.land (flag f) O_APPEND = 0 -> pos f' = pos f).
Proof.
  unfold tempFile in Hrun. rewrite Htf in Hrun.
  unfold bind, os_MkdirAll, os_CreateTemp, stage_content, GetContent,
    invoke, ret, os_OpenFile in Hrun.
  repeat match type of Hrun with
         | context [api_GetContent ?a ?b] =>
           destruct (api_GetContent a b) as [? [?|?]]; simpl in Hrun
         | context [mkdirAll_err ?x] =>
           destruct (mkdirAll_err x); simpl in Hrun
         | context [createTemp_err ?x] =>
           destruct (createTemp_err x); simpl in Hrun
         | context [?a && ?b] => destruct (a && b); simpl in Hrun
         end;
    try (by inversion Hrun);
    destruct (Z.land (flag f) O_APPEND >? 0) eqn:Happ;
    inversion Hrun; subst; simpl; repeat split; try done;
    intros H0; rewrite H0 in Happ; discriminate.
Qed.

(** Staging under [O_TRUNC] fetches nothing: the staging file starts
    empty at offset 0, and the call log is as before. *)
Lemma tempFile_trunc f w f' (t : os_File) w'
    (Htf : tf f = None)
    (Htrunc : Z.land (flag f) O_TRUNC <> 0)
    (Hrun : tempFile f w = (Ret (f', inl t), w')) :
  w' = w /\ tf f' = Some t /\
  isNew f' = isNew f /\ name f' = name f /\ flag f' = flag f /\
  t = mkOsFile ("tmp/" +:+ ReplaceAll_slash (name f)) [] 0 (flag f)
        false false.
Proof.
  unfold tempFile in Hrun. rewrite Htf in Hrun.
  unfold bind, os_MkdirAll, os_CreateTemp, stage_content, ret in Hrun.
  destruct (mkdirAll_err w); [by inversion Hrun|].
  destruct (createTemp_err w); [by inversion Hrun|].
  apply Z.eqb_neq in Htrunc as Hne. rewrite Hne in Hrun. simpl in Hrun.
  unfold os_OpenFile in Hrun.
  rewrite (flag_set (flag f) O_TRUNC) in Hrun by done.
  destruct ((Z.land (flag f) O_CREATE >? 0) && (Z.land (flag f) O_EXCL >? 0));
    [by destruct (Z.land (flag f) O_APPEND >? 0); inversion Hrun|].
  destruct (Z.land (flag f) O_APPEND >? 0); inversion Hrun; subst;
    by repeat split.
Qed.

(** C4. A pre-existing object opened with truncate and write access,
    one [Write] of [p], then [Close]: the staging step fetches nothing,
    and [Close] makes exactly one [Update] call, whose stream is [p]. *)
Theorem truncate_write_close (nm : string) (fl pm : Z) (p : list byte)
    w (i : apiInfo) f w1 f' w2
    (Hprobe : (api_Stat (backend w) nm).2 = inl i)
    (Htrunc : Z.land fl O_TRUNC <> 0)
    (Hacc : writable fl = true)
    (Hopen : OpenFile nm fl pm w = (Ret (inl f), w1))
    (Hwrite : Write f p w1 = (Ret (f', (blen p, None)), w2)) :
  exists f'' w3,
    Close f' w2 = (Ret (f'', None), w3) /\
    calls w3 = calls w ++ [CStat nm; CUpdate nm p] /\
    count is_Update (calls w3) = (count is_Update (calls w) + 1)%nat /\
    count is_GetContent (calls w3) = count is_GetContent (calls w).
Proof.
  destruct (OpenFile_probe nm fl pm w) as (w1' & Hlog & _ & _ & _ & Hop).
  rewrite Hprobe, Hopen in Hop. inversion Hop; subst f w1'; clear Hop.
  unfold Write, bind in Hwrite.
  destruct (tempFile (mkFile false None 0 nm fl pm) w1)
    as [[[g [t | err]] | msg] wt] eqn:Hstage;
    [| by inversion Hwrite | by inversion Hwrite].
  apply tempFile_trunc in Hstage as (-> & Hg & HgN & Hgn & Hgf & ->);
    [| done | done].
  destruct g as [gN gt gp gn gf gpm]. simpl in *. subst gN gt gn gf.
  unfold os_File_Write, ret in Hwrite. simpl in Hwrite.
  rewrite Hacc in Hwrite. simpl in Hwrite.
  assert (Z.to_nat (if Z.land fl O_APPEND >? 0 then blen [] else 0) = 0%nat)
    as Hoff by (by destruct (Z.land fl O_APPEND >? 0)).
  inversion Hwrite; subst f' w2; clear Hwrite.
  unfold Close, Close_body, bind. simpl.
  rewrite (writable_access fl Hacc).
  unfold deref, ret, os_Open, Update, invoke. simpl.
  destruct (api_Update (backend w1) nm _) as [b' r] eqn:Hupd. simpl.
  do 2 eexists. split; [reflexivity|]. simpl.
  unfold write_at. rewrite Hoff. simpl. rewrite drop_nil, app_nil_r.
  rewrite Hlog, <- app_assoc. split; [done|].
  rewrite !count_app. unfold count. simpl. lia.
Qed.

(** [Close] changes nothing of the handle but its staging file, and
    nothing of the world but the backend and the call log. *)
Lemma Close_preserves f w f' (err : option error) w'
    (Hclose : Close f w = (Ret (f', err), w')) :
  isNew f' = isNew f /\ name f' = name f /\ flag f' = flag f /\
  perm f' = perm f /\ pos f' = pos f /\ now w' = now w.
Proof.
  unfold Close, Close_body, Close_deferred, bind, ret, deref, panic,
    NewFile, Update, invoke, os_Open, os_File_Close in Hclose.
  destruct f as [[] [t|] fp fn ff fpm]; simpl in *;
    repeat match type of Hclose with
           | context [api_NewFile ?a ?b ?c] =>
             destruct (api_NewFile a b c) as [? [?|]]; simpl in Hclose
           | context [api_Update ?a ?b ?c] =>
             destruct (api_Update a b c) as [? ?]; simpl in Hclose
           | context [of_removed ?t] =>
             destruct (of_removed t); simpl in Hclose
           | context [of_closed ?t] =>
             destruct (of_closed t); simpl in Hclose
           | context [?a >? ?b] => destruct (a >? b); simpl in Hclose
           end;
    inversion Hclose; subst; by repeat split.
Qed.

(** C9, as the code has it.  [Close] never clears [isNew], so on a handle
    opened with create on an absent object, [Stat] after [Close] is still
    the synthetic metadata and asks the backend nothing; the backend's
    metadata is what the facade's [Stat] of the name returns, by one
    backend call. *)
Theorem Stat_after_Close f w f' (err : option error) w'
    (Hnew : isNew f = true)
    (Hcreate : Z.land (flag f) O_CREATE <> 0)
    (Hclose : Close f w = (Ret (f', err), w')) :
  Stat f' w' =
    (Ret (inl (Synthetic (mkNewFileInfo (name f) (perm f) (now w)))), w') /\
  (FS_Stat (name f) w').1 = Ret (api_Stat (backend w') (name f)).2 /\
  calls (FS_Stat (name f) w').2 = calls w' ++ [CStat (name f)].
Proof.
  apply Close_preserves in Hclose as (HN & Hn & Hf & Hp & _ & Hnow).
  split.
  - unfold Stat. rewrite HN, Hf, Hn, Hp, Hnew.
    rewrite (flag_set (flag f) O_CREATE) by done.
    unfold bind, time_Now, ret. simpl. by rewrite Hnow.
  - unfold FS_Stat, API_Stat, invoke.
    by destruct (api_Stat (backend w') (name f)) as [b' r].
Qed.

(** *** Where [Close] goes wrong *)

(** A created handle that never staged: [Close] sends the empty stream
    in one [NewFile] call, and then fails on [file.tf.Close()] although
    the backend succeeded. *)
Lemma Close_new_unstaged f w
    (Hnew : isNew f = true) (Htf : tf f = None)
    (Hok : (api_NewFile (backend w) (name f) []).2 = None) :
  exists w',
    Close f w = (Ret (f, Some (Errorf "cannot close" ErrInvalid)), w') /\
    calls w' = calls w ++ [CNewFile (name f) []].
Proof.
  unfold Close, Close_body, Close_deferred, bind, NewFile, invoke, ret.
  rewrite Hnew, Htf.
  destruct (api_NewFile (backend w) (name f) []) as [b' r].
  simpl in Hok. subst r. simpl.
  destruct f; simpl in *; subst. by eexists.
Qed.

(** A handle on an existing object, opened for writing, that never
    staged: [Close] faults on [file.tf.Name()]. *)
Lemma Close_write_unstaged f w
    (Hnew : isNew f = false) (Htf : tf f = None)
    (Hacc : Z.land (flag f) (Z.lor O_RDWR O_WRONLY) <> 0) :
  Close f w =
    (Panic "invalid memory address or nil pointer dereference", w).
Proof.
  unfold Close, Close_body, bind, deref, panic.
  rewrite Hnew, Htf, flag_set; done.
Qed.

(** A handle on an existing object, opened for writing and staged:
    whatever [Update] answers, [Close] answers nil. *)
Lemma Close_drops_Update_error f (t : os_File) w
    (Hnew : isNew f = false) (Htf : tf f = Some t)
    (Hacc : Z.land (flag f) (Z.lor O_RDWR O_WRONLY) <> 0)
    (Hdisk : of_removed t = false) :
  exists f' w',
    Close f w = (Ret (f', None), w') /\
    calls w' = calls w ++ [CUpdate (name f) (of_data t)].
Proof.
  unfold Close, Close_body, bind, deref, os_Open, Update, invoke, ret.
  rewrite Hnew, Htf, flag_set, Hdisk by done.
  destruct (api_Update (backend w) (name f) (of_data t)) as [b' r].
  by do 2 eexists.
Qed.
End Properties.

(** * The handle on concrete inputs *)

(** C1. An absent ["/a.txt"] is opened with create and closed at once.
    [Close] makes its one [NewFile] call with the empty stream and the
    backend stores the empty object, yet [Close] reports an error: the
    final [file.tf.Close()] runs on a nil staging file. *)
Theorem create_close_reports_failure :
  (run create_close store0).1 =
    Ret (Some (Some (Errorf "cannot close" ErrInvalid))) /\
  calls (run create_close store0).2 =
    [CStat "/a.txt"; CNewFile "/a.txt" []] /\
  (api_NewFile store0 "/a.txt" []).2 = None /\
  stored (run create_close store0) "/a.txt" = Some [].
Proof. repeat split; vm_compute; reflexivity. Qed.

(** C2. The existing ["/b.txt"] is opened read-write, written and closed
    while the backend's [Update] fails: [Close] made the [Update] call, the
    backend refused it and kept the old bytes, and [Close] answers nil. *)
Theorem write_close_hides_Update_failure :
  (run write_close store_down).1 = Ret (Some (1, None, None)) /\
  calls (run write_close store_down).2 =
    [CStat "/b.txt"; CGetContent "/b.txt"; CUpdate "/b.txt" (bytes "!orld")] /\
  (api_Update store_down "/b.txt" (bytes "!orld")).2 =
    Some (ErrNew "backend down") /\
  stored (run write_close store_down) "/b.txt" = Some (bytes "world").
Proof. repeat split; vm_compute; reflexivity. Qed.

(** C3. The existing ["/b.txt"] is opened write-only and closed at once:
    [Close] faults on the nil staging file. *)
Theorem open_close_faults :
  (run open_close store0).1 =
    Panic "invalid memory address or nil pointer dereference".
Proof. vm_compute; reflexivity. Qed.

(** C5. ["/b.txt"] holds ["world"]; the handle is sought to 2 and then 3
    bytes are read.  Staging keeps [pos] at 2, but the staging file is
    reopened at offset 0, so the read returns ["wor"], not the bytes from
    offset 2, and [pos] ends at 5 while the staging file is at 3. *)
Theorem seek_read_starts_at_zero :
  (run seek_read store0).1 = Ret (Some (2, bytes "wor", 5)) /\
  take 3 (drop 2 (bytes "world")) = bytes "rld".
Proof. split; vm_compute; reflexivity. Qed.

(** C9, refuted as stated.  ["/a.txt"] is created, written and closed
    with success; [Stat] on the closed handle is not the backend's
    metadata of the flushed object. *)
Lemma Stat_after_Close_stays_synthetic :
  exists st real,
    (run create_write_close_stat store0).1 =
      Ret (Some (None, st, inl real)) /\
    stored (run create_write_close_stat store0) "/a.txt" =
      Some (bytes "hello") /\
    st <> inl (Remote real) /\
    ai_size real = 5.
Proof.
  exists (inl (Synthetic (mkNewFileInfo "/a.txt" 420 1000))),
         (mem_info "/a.txt" (bytes "hello")).
  repeat split; [vm_compute; reflexivity .. | discriminate].
Qed.

(** * The theorems at concrete inputs *)

Lemma Seek_unmaterialized_witness :
  tf handle_b = None /\
  exists f' r w',
    Seek handle_b 0 SeekEnd world0 = (Ret (f', r), w') /\
    (f', r) = (set_pos handle_b 5, (5, None)) /\
    tf f' = None /\
    calls w' = [CStat "/b.txt"] /\
    count is_GetContent (calls w') = 0%nat.
Proof.
  split; [reflexivity|].
  exact (Seek_unmaterialized handle_b 0 SeekEnd world0 eq_refl).
Defined.

Lemma OpenFile_not_found_witness :
  (api_Stat store0 "/missing").2 = inr (Errorf "stat" ErrNotExist) /\
  exists err w',
    OpenFile "/missing" O_RDONLY 0 world0 = (Ret (inr err), w') /\
    err = Errorf "error while opening file" (Errorf "stat" ErrNotExist) /\
    errors_Is err ErrNotExist = true.
Proof.
  split; [reflexivity|].
  apply (OpenFile_not_found "/missing" O_RDONLY 0 world0
           (Errorf "stat" ErrNotExist)); reflexivity.
Defined.

Lemma Stat_after_create_open_witness :
  exists f w1 fi,
    OpenFile "/a.txt" create_flag 420 world0 = (Ret (inl f), w1) /\
    Stat f w1 = (Ret (inl fi), w1) /\
    fi = Synthetic (mkNewFileInfo "/a.txt" 420 1000) /\
    fi_Size fi = 0 /\ fi_IsDir fi = false /\
    fi_Name fi = "/a.txt" /\ fi_Mode fi = 420.
Proof.
  apply (Stat_after_create_open "/a.txt" create_flag 420 world0
           (Errorf "stat" ErrNotExist)); [reflexivity | reflexivity | done].
Defined.

Lemma truncate_write_close_witness :
  Write handle_trunc (bytes "!") (probed "/b.txt") =
    (Ret (handle_trunc_written, (1, None)), probed "/b.txt") /\
  exists f'' w3,
    Close handle_trunc_written (probed "/b.txt") = (Ret (f'', None), w3) /\
    calls w3 = [CStat "/b.txt"; CUpdate "/b.txt" (bytes "!")] /\
    count is_Update (calls w3) = 1%nat /\
    count is_GetContent (calls w3) = 0%nat.
Proof.
  split; [reflexivity|].
  apply (truncate_write_close "/b.txt" trunc_flag 420 (bytes "!") world0
           (mem_info "/b.txt" (bytes "world"))
           handle_trunc (probed "/b.txt")
           handle_trunc_written (probed "/b.txt"));
    [reflexivity | done | reflexivity | reflexivity | reflexivity].
Defined.

Lemma Stat_after_Close_witness :
  Close handle_a_written (probed "/a.txt") =
    (Ret (handle_a_closed, None), world_a_closed) /\
  Stat handle_a_closed world_a_closed =
    (Ret (inl (Synthetic (mkNewFileInfo "/a.txt" 420 1000))), world_a_closed) /\
  (FS_Stat "/a.txt" world_a_closed).1 =
    Ret (inl (mem_info "/a.txt" (bytes "hello"))) /\
  calls (FS_Stat "/a.txt" world_a_closed).2 =
    [CStat "/a.txt"; CNewFile "/a.txt" (bytes "hello"); CStat "/a.txt"].
Proof.
  split; [reflexivity|].
  assert (Z.land (flag handle_a_written) O_CREATE <> 0) as Hcreate by done.
  exact (Stat_after_Close handle_a_written (probed "/a.txt") handle_a_closed
           None world_a_closed eq_refl Hcreate eq_refl).
Defined.


(** * Further properties of the package *)

(** ** Bytes, sums and wrapped errors *)

Lemma wrap64_range (z : Z) : - 2 ^ 63 <= wrap64 z <= MaxInt64.
Proof.
  unfold wrap64, MaxInt64.
  pose proof (Z.mod_pos_bound (z + 2 ^ 63) (2 ^ 64) ltac:(lia)). lia.
Qed.

Lemma errors_Is_Errorf_NotExist (ctx : string) (e : error) :
  errors_Is (Errorf ctx e) ErrNotExist = errors_Is e ErrNotExist.
Proof. cbn [errors_Is]. by rewrite bool_decide_eq_false_2. Qed.

Lemma write_at_start (c p : list byte) :
  write_at c 0 p = p ++ drop (length p) c.
Proof. reflexivity. Qed.

Lemma write_at_end (c p : list byte) : write_at c (blen c) p = c ++ p.
Proof.
  unfold write_at, blen. rewrite Nat2Z.id, firstn_all, Nat.sub_diag.
  simpl. rewrite drop_ge by lia. by rewrite app_nil_r.
Qed.


Lemma length_take_drop (n o : nat) (l : list byte) :
  (length (take n (drop o l)) <= length l - o)%nat.
Proof. rewrite length_take, length_drop. lia. Qed.

(** [strings.ReplaceAll(name, "/", "_")] *)

(** X1. The pattern handed to [os.CreateTemp] never contains a path
    separator, has the length of the name, and a name without
    separators is its own pattern. *)
Theorem ReplaceAll_slash_no_separator (s : string) :
  ("/"%char ∉ chars (ReplaceAll_slash s)) /\
  String.length (ReplaceAll_slash s) = String.length s /\
  (("/"%char ∉ chars s) -> ReplaceAll_slash s = s).
Proof.
  unfold chars. induction s as [|c s (IH1 & IH2 & IH3)]; simpl.
  - repeat split; try done. apply not_elem_of_nil.
  - repeat split.
    + intros Hin. apply elem_of_cons in Hin as [Hc | Hin]; [|done].
      destruct (Ascii.eqb c "/") eqn:E; [discriminate Hc|].
      apply Ascii.eqb_neq in E. congruence.
    + by rewrite IH2.
    + intros Hnot. apply not_elem_of_cons in Hnot as [Hc Hs].
      rewrite IH3 by done.
      destruct (Ascii.eqb c "/") eqn:E; [|done].
      apply Ascii.eqb_eq in E. congruence.
Qed.

Section Further.
Context {B : Type} `{!FileRESTAPI B}.

Implicit Types (f : File) (w : World B).

(** Case analysis over one run of [Close], kept in [H]. *)
Ltac close_cases H :=
  unfold Close, Close_body, Close_deferred, bind, ret, deref, panic,
    NewFile, Update, invoke, os_Open, os_File_Close in H;
  simpl in H;
  repeat match type of H with
         | context [api_NewFile ?a ?b ?c] =>
           destruct (api_NewFile a b c) as [? [?|]] eqn:?; simpl in H
         | context [api_Update ?a ?b ?c] =>
           destruct (api_Update a b c) as [? ?] eqn:?; simpl in H
         | context [of_removed ?t] =>
           destruct (of_removed t) eqn:?; simpl in H
         | context [of_closed ?t] =>
           destruct (of_closed t) eqn:?; simpl in H
         | context [?a >? ?b] => destruct (a >? b) eqn:?; simpl in H
         end.

(** ** Close *)

(** X2. [Close] faults exactly on a handle of an existing object that
    was opened with write access and never staged; every other handle
    gets a result. *)
Theorem Close_faults_iff f w :
  (exists msg, (Close f w).1 = Panic msg) <->
  isNew f = false /\ tf f = None /\ write_access (flag f) = true.
Proof.
  unfold write_access. split.
  - intros [msg H]. destruct f as [[] [t|] fp fn ff fpm];
      close_cases H; try discriminate H; by repeat split.
  - intros (HN & Ht & Hacc). eexists.
    unfold Close, Close_body, bind, deref, panic.
    rewrite HN, Ht, Hacc. reflexivity.
Qed.

(** X3. [Close] makes at most one backend call, and it is a call for
    the handle's own name: [NewFile] only for a created object, [Update]
    only for an existing one; it never probes or fetches. *)
Theorem Close_calls f w :
  exists l,
    calls (Close f w).2 = calls w ++ l /\
    (l = [] \/
     (exists c, l = [CNewFile (name f) c] /\ isNew f = true) \/
     (exists c, l = [CUpdate (name f) c] /\ isNew f = false)).
Proof.
  destruct (Close f w) as [r w'] eqn:H. simpl.
  destruct f as [[] [t|] fp fn ff fpm]; close_cases H;
    inversion H; subst; simpl;
    first [ by exists []; rewrite app_nil_r; auto
          | by eexists [_]; eauto 6 ].
Qed.

(** X4. A handle of an existing object opened without write access:
    [Close] calls nothing, answers nil, and leaves a staging file closed
    and unlinked. *)
Theorem Close_read_only f w
    (Hnew : isNew f = false)
    (Hacc : write_access (flag f) = false) :
  exists f',
    Close f w = (Ret (f', None), w) /\
    (forall t, tf f = Some t ->
       exists t', tf f' = Some t' /\
                  of_closed t' = true /\ of_removed t' = true).
Proof.
  unfold write_access in Hacc.
  unfold Close, Close_body, Close_deferred, bind, ret, os_File_Close.
  rewrite Hnew, Hacc. eexists. split; [reflexivity|].
  intros t Ht. destruct f as [fN ft fp fn ff fpm]. simpl in *. subst ft.
  destruct (of_closed t) eqn:Hc; simpl; eexists; by repeat split.
Qed.

(** X5. On a staged handle [Close] always returns, and whatever it
    returns, the staging file ends closed and unlinked, its bytes
    untouched. *)
Theorem Close_releases_staging f (t : os_File) w (Htf : tf f = Some t) :
  exists f' err w' t',
    Close f w = (Ret (f', err), w') /\
    tf f' = Some t' /\ of_closed t' = true /\ of_removed t' = true /\
    of_data t' = of_data t.
Proof.
  destruct (Close f w) as [r w'] eqn:H.
  destruct f as [fN ft fp fn ff fpm]. simpl in Htf. subst ft.
  destruct fN; close_cases H; inversion H; subst;
    do 4 eexists; by repeat split.
Qed.


(** X7. A second [Close] of a staged handle sends nothing: the world is
    as the first [Close] left it, the handle too; and where the first
    one flushed (created object or write access) the second one answers
    with a not-found error, the staging file being gone. *)
Theorem Close_twice f (t : os_File) w f1 (e1 : option error) w1
    (Htf : tf f = Some t)
    (Hclose : Close f w = (Ret (f1, e1), w1)) :
  exists e2,
    Close f1 w1 = (Ret (f1, e2), w1) /\
    (isNew f = true \/ write_access (flag f) = true ->
     Is e2 ErrNotExist = true).
Proof.
  unfold write_access.
  destruct f as [fN ft fp fn ff fpm]. simpl in *. subst ft.
  destruct fN; close_cases Hclose; inversion Hclose; subst;
    unfold Close, Close_body, Close_deferred, bind, ret, deref, os_Open,
      os_File_Close, os_RemoveAll; simpl;
    repeat match goal with
           | E : of_closed _ = _ |- _ => rewrite E; clear E; simpl
           | E : (_ >? _) = _ |- _ => rewrite E; simpl
           end;
    eexists; (split; [reflexivity|]);
    intros [?|?]; by simplify_eq.
Qed.

(** ** Staging, Read and Write *)

(** X8. Once a handle is staged, [Read], [Write] and [Seek] work on the
    staging file alone: the backend and the call log stay as they were. *)
Theorem staged_handle_is_local f (t : os_File) w (n : nat) (p : list byte)
    (offset whence : Z) (Htf : tf f = Some t) :
  (Read f n w).2 = w /\ (Write f p w).2 = w /\
  (Seek f offset whence w).2 = w.
Proof.
  unfold Read, Write, Seek, tempFile, bind, ret. rewrite Htf.
  destruct (os_File_Read t n) as [[t1 bs] [e1|]];
    destruct (os_File_Write t p) as [[t2 k] [e2|]];
    destruct (os_File_Seek t offset whence) as [[t3 r] e3]; by simpl.
Qed.

(** X9. When the first [Read] or [Write] cannot fetch the remote
    content, it answers [-1] with the backend's error as it came, after
    the one [GetContent] call, and the handle is left unstaged and
    otherwise unchanged. *)
Theorem staging_fetch_error f w (n : nat) (p : list byte) (e : error)
    (Htf : tf f = None) (Hnew : isNew f = false)
    (Htrunc : Z.land (flag f) O_TRUNC = 0)
    (Hdir : mkdirAll_err w = None) (Htmp : createTemp_err w = None)
    (Hfetch : (api_GetContent (backend w) (name f)).2 = inr e) :
  exists w',
    Read f n w = (Ret (f, (-1, [], Some e)), w') /\
    Write f p w = (Ret (f, (-1, Some e)), w') /\
    calls w' = calls w ++ [CGetContent (name f)].
Proof.
  unfold Read, Write, tempFile, stage_content, GetContent, invoke,
    os_MkdirAll, os_CreateTemp, bind, ret.
  rewrite Htf, Hdir, Htmp, Htrunc, Hnew. simpl.
  destruct (api_GetContent (backend w) (name f)) as [b' r].
  simpl in Hfetch. subst r. simpl.
  eexists. split; [reflexivity|]. split; reflexivity.
Qed.

(** X10. When the staging directory or the staging file cannot be
    created, the first [Read] or [Write] answers [-1] with that error
    wrapped, asks the backend nothing and leaves the handle as it was. *)
Theorem staging_local_error f w (n : nat) (p : list byte) (e : error)
    (Htf : tf f = None)
    (Hlocal : mkdirAll_err w = Some e \/
              (mkdirAll_err w = None /\ createTemp_err w = Some e)) :
  exists ctx,
    Read f n w = (Ret (f, (-1, [], Some (Errorf ctx e))), w) /\
    Write f p w = (Ret (f, (-1, Some (Errorf ctx e))), w) /\
    ctx = match mkdirAll_err w with
          | Some _ => "cannot create tmp dir"
          | None => "cannot create tmp file"
          end.
Proof.
  unfold Read, Write, tempFile, os_MkdirAll, os_CreateTemp, bind, ret.
  rewrite Htf.
  destruct Hlocal as [-> | [-> ->]]; eexists;
    (split; [reflexivity|]); split; reflexivity.
Qed.

(** X11. The first [Read] on a fresh read handle of an existing,
    non-empty object fetches the content once and returns its first
    bytes, as many as the buffer holds; the position advances by that
    count and agrees with the staging file. *)
Theorem Read_first f w (n : nat) (c : list byte)
    (Htf : tf f = None) (Hnew : isNew f = false) (Hpos : pos f = 0)
    (Htrunc : Z.land (flag f) O_TRUNC = 0)
    (Happ : Z.land (flag f) O_APPEND = 0)
    (Hexcl : Z.land (flag f) O_EXCL = 0)
    (Hacc : readable (flag f) = true)
    (Hdir : mkdirAll_err w = None) (Htmp : createTemp_err w = None)
    (Hfetch : (api_GetContent (backend w) (name f)).2 = inl c)
    (Hn : (0 < n)%nat) (Hc : c <> []) (Hsize : blen c <= MaxInt64) :
  exists f' w',
    Read f n w = (Ret (f', (blen (take n c), take n c, None)), w') /\
    pos f' = blen (take n c) /\ in_sync f' = true /\
    calls w' = calls w ++ [CGetContent (name f)].
Proof.
  unfold Read, tempFile, stage_content, GetContent, invoke, os_MkdirAll,
    os_CreateTemp, os_OpenFile, os_File_Read, bind, ret.
  rewrite Htf, Hdir, Htmp, Htrunc, Hnew, Happ, Hexcl, andb_false_r. simpl.
  destruct (api_GetContent (backend w) (name f)) as [b' r].
  simpl in Hfetch. subst r. simpl. rewrite Hacc. simpl.
  destruct n as [|n]; [lia|]. destruct c as [|x c]; [done|].
  rewrite Hpos. simpl.
  assert (wrap64 (0 + blen (x :: take n c)) = blen (x :: take n c)) as ->.
  { apply wrap64_small. unfold blen, MaxInt64 in *.
    simpl length in *. rewrite length_take. lia. }
  do 2 eexists. split; [reflexivity|]. unfold in_sync. simpl.
  repeat split. apply Pos.eqb_refl.
Qed.

(** X12. A handle created with [O_CREATE|O_EXCL] can never be staged:
    the reopen of the staging file refuses the file [os.CreateTemp] has
    just made, so [Read] and [Write] answer [-1] with an already-exists
    error and the handle stays without staging file. *)
Theorem staging_refused_excl f w (n : nat) (p : list byte)
    (Htf : tf f = None) (Hnew : isNew f = true)
    (Hcreate : Z.land (flag f) O_CREATE <> 0)
    (Hexcl : Z.land (flag f) O_EXCL <> 0)
    (Hdir : mkdirAll_err w = None) (Htmp : createTemp_err w = None) :
  exists f' e,
    Write f p w = (Ret (f', (-1, Some e)), w) /\
    Read f n w = (Ret (f', (-1, [], Some e)), w) /\
    errors_Is e ErrExist = true /\ tf f' = None.
Proof.
  unfold Read, Write, tempFile, stage_content, os_MkdirAll, os_CreateTemp,
    os_OpenFile, bind, ret.
  rewrite Htf, Hdir, Htmp, Hnew, andb_false_r.
  rewrite (flag_set _ O_CREATE), (flag_set _ O_EXCL) by done. simpl.
  destruct (Z.land (flag f) O_APPEND >? 0); do 2 eexists;
    (split; [reflexivity|]); (split; [reflexivity|]); by split.
Qed.

(** ** Position tracking on a staged handle *)

(** X13. [Seek] on a staged handle hands the request to the staging
    file and stores what it answers in [pos]: on success a position
    within [0, MaxInt64] that agrees with the staging file; on failure
    the answer is 0, so [pos] falls back to 0 while the staging file
    stays where it was. *)
Theorem Seek_staged f (t : os_File) w (offset whence : Z)
    f' (r : Z) (err : option error) w'
    (Htf : tf f = Some t)
    (Hrun : Seek f offset whence w = (Ret (f', (r, err)), w')) :
  pos f' = r /\ 0 <= r <= MaxInt64 /\
  (err = None -> in_sync f' = true) /\
  (err <> None -> r = 0 /\ tf f' = Some t).
Proof.
  unfold Seek, os_File_Seek, ret in Hrun. rewrite Htf in Hrun.
  unfold in_sync, MaxInt64 in *.
  destruct (of_closed t); [inversion Hrun; subst; simpl; by repeat split|].
  match type of Hrun with
  | context [(?a <? 0) || (?b <? ?a)] =>
    destruct (a <? 0) eqn:Hlo; [|destruct (b <? a) eqn:Hhi]; simpl in Hrun
  end; inversion Hrun; subst; simpl; try by repeat split.
  apply Z.ltb_ge in Hlo, Hhi. repeat split; try done; try lia.
Qed.

(** X14. On a staged handle whose [pos] agrees with the staging file,
    [Read] keeps the two in agreement, and so does [Write] unless the
    file was opened with [O_APPEND]. *)
Theorem sync_preserved f (t : os_File) w (n : nat) (p : list byte)
    (Htf : tf f = Some t) (Hsync : in_sync f = true)
    (Hpos : 0 <= pos f)
    (Hsize : blen (of_data t) <= MaxInt64)
    (Hroom : pos f + blen p <= MaxInt64) :
  (exists f' r, Read f n w = (Ret (f', r), w) /\ in_sync f' = true) /\
  (Z.land (of_flag t) O_APPEND = 0 ->
   exists f' r, Write f p w = (Ret (f', r), w) /\ in_sync f' = true).
Proof.
  unfold in_sync in Hsync. rewrite Htf in Hsync. apply Z.eqb_eq in Hsync.
  assert (forall k, 0 <= k -> pos f + k <= MaxInt64 ->
            wrap64 (pos f + k) = of_off t + k) as Hadd.
  { intros k Hk Hle. rewrite <- Hsync. apply wrap64_small.
    unfold MaxInt64 in *. lia. }
  split.
  - unfold Read, tempFile, os_File_Read, bind, ret. rewrite Htf.
    pose proof (length_take_drop n (Z.to_nat (of_off t)) (of_data t)) as Hlen.
    destruct (of_closed t), (n =? 0)%nat, (negb (readable (of_flag t))),
      (take n (drop (Z.to_nat (of_off t)) (of_data t))) as [|x bs];
      do 2 eexists; (split; [reflexivity|]); unfold in_sync; simpl;
      apply Z.eqb_eq; try done;
      first [apply Hadd | rewrite <- (Z.add_0_r (of_off t)); apply Hadd];
      unfold blen, MaxInt64 in *; simpl length in *; lia.
  - intros Happ.
    unfold Write, tempFile, os_File_Write, bind, ret. rewrite Htf, Happ.
    destruct (of_closed t), (negb (writable (of_flag t)));
      do 2 eexists; (split; [reflexivity|]); unfold in_sync; simpl;
      apply Z.eqb_eq; try done.
    apply Hadd; unfold blen in *; lia.
Qed.


(** ** Whole sessions *)

(** A fresh write handle on an existing object, without truncate: one
    [Write], then [Close]. *)
Lemma Write_then_Close_existing f w (p c : list byte)
    (Htf : tf f = None) (Hnew : isNew f = false)
    (Htrunc : Z.land (flag f) O_TRUNC = 0)
    (Hexcl : Z.land (flag f) O_EXCL = 0)
    (Hacc : writable (flag f) = true)
    (Hdir : mkdirAll_err w = None) (Htmp : createTemp_err w = None)
    (Hfetch : (api_GetContent (backend w) (name f)).2 = inl c) :
  let off := if Z.land (flag f) O_APPEND >? 0 then blen c else 0 in
  exists f1 w1 f2 w2,
    Write f p w = (Ret (f1, (blen p, None)), w1) /\
    Close f1 w1 = (Ret (f2, None), w2) /\
    calls w2 = calls w ++
      [CGetContent (name f); CUpdate (name f) (write_at c off p)] /\
    pos f1 = wrap64 ((if Z.land (flag f) O_APPEND >? 0
                      then blen c else pos f) + blen p).
Proof.
  intros off. subst off.
  unfold Write, tempFile, stage_content, GetContent, invoke, os_MkdirAll,
    os_CreateTemp, os_OpenFile, os_File_Write, bind, ret.
  rewrite Htf, Hdir, Htmp, Htrunc, Hnew, Hexcl, andb_false_r. simpl.
  destruct (api_GetContent (backend w) (name f)) as [b' r].
  simpl in Hfetch. subst r. simpl.
  destruct f as [fN ft fp fn ff fpm]. simpl in *. subst fN ft.
  pose proof (writable_access ff Hacc) as Hw.
  destruct (api_Update b' fn
              (write_at c (if Z.land ff O_APPEND >? 0 then blen c else 0) p))
    as [b2 r2] eqn:Hup.
  destruct (Z.land ff O_APPEND >? 0) eqn:Happ; simpl;
    rewrite Hacc, ?Happ; simpl;
    do 4 eexists; (split; [reflexivity|]);
    unfold Close, Close_body, Close_deferred, bind, ret, deref, os_Open,
      Update, invoke; simpl; rewrite Hw; cbn [backend]; rewrite Hup;
    (split; [reflexivity|]); simpl; rewrite <- app_assoc; by split.
Qed.


(** X17. Writing over an existing object without truncate and without
    append: the first [Write] on a fresh handle fetches the content [c]
    once and lays [p] over its first bytes; [Close] then makes one
    [Update] call carrying [p] followed by what is left of [c]. *)
Theorem overwrite_keeps_tail f w (p c : list byte)
    (Htf : tf f = None) (Hnew : isNew f = false) (Hpos : pos f = 0)
    (Htrunc : Z.land (flag f) O_TRUNC = 0)
    (Happ : Z.land (flag f) O_APPEND = 0)
    (Hexcl : Z.land (flag f) O_EXCL = 0)
    (Hacc : writable (flag f) = true)
    (Hdir : mkdirAll_err w = None) (Htmp : createTemp_err w = None)
    (Hfetch : (api_GetContent (backend w) (name f)).2 = inl c) :
  exists f1 w1 f2 w2,
    Write f p w = (Ret (f1, (blen p, None)), w1) /\
    Close f1 w1 = (Ret (f2, None), w2) /\
    calls w2 = calls w ++
      [CGetContent (name f); CUpdate (name f) (p ++ drop (length p) c)].
Proof.
  destruct (Write_then_Close_existing f w p c)
    as (f1 & w1 & f2 & w2 & Hw & Hc & Hlog & _); try done.
  rewrite Happ in Hlog. simpl in Hlog. rewrite write_at_start in Hlog.
  by exists f1, w1, f2, w2.
Qed.

(** X18. Appending to an existing object: with [O_APPEND] the first
    [Write] fetches the content [c] once and puts [p] after it, the
    position becomes the length of both, and [Close] makes one [Update]
    call carrying [c] followed by [p]. *)
Theorem append_extends f w (p c : list byte)
    (Htf : tf f = None) (Hnew : isNew f = false)
    (Htrunc : Z.land (flag f) O_TRUNC = 0)
    (Happ : Z.land (flag f) O_APPEND <> 0)
    (Hexcl : Z.land (flag f) O_EXCL = 0)
    (Hacc : writable (flag f) = true)
    (Hdir : mkdirAll_err w = None) (Htmp : createTemp_err w = None)
    (Hfetch : (api_GetContent (backend w) (name f)).2 = inl c)
    (Hsize : blen c + blen p <= MaxInt64) :
  exists f1 w1 f2 w2,
    Write f p w = (Ret (f1, (blen p, None)), w1) /\
    pos f1 = blen c + blen p /\
    Close f1 w1 = (Ret (f2, None), w2) /\
    calls w2 = calls w ++ [CGetContent (name f); CUpdate (name f) (c ++ p)].
Proof.
  destruct (Write_then_Close_existing f w p c)
    as (f1 & w1 & f2 & w2 & Hw & Hc & Hlog & Hp); try done.
  rewrite (flag_set _ O_APPEND) in Hlog, Hp by done.
  rewrite write_at_end in Hlog.
  rewrite wrap64_small in Hp by (unfold blen, MaxInt64 in *; lia).
  by exists f1, w1, f2, w2.
Qed.

(** ** OpenFile *)

(** X19. A probe that fails for another reason than not-found makes
    [OpenFile] fail whatever the flags, create included; the wrapped
    error still does not pass for not-found. *)
Theorem OpenFile_other_error (nm : string) (fl pm : Z) w (e : error)
    (Hprobe : (api_Stat (backend w) nm).2 = inr e)
    (Hother : errors_Is e ErrNotExist = false) :
  exists err w',
    OpenFile nm fl pm w = (Ret (inr err), w') /\
    err = Errorf "error while opening file" e /\
    errors_Is err ErrNotExist = false /\
    calls w' = calls w ++ [CStat nm].
Proof.
  destruct (OpenFile_probe nm fl pm w) as (w' & Hlog & _ & _ & _ & Hopen).
  rewrite Hprobe, Hother in Hopen. simpl in Hopen.
  exists (Errorf "error while opening file" e), w'.
  split; [done|]. split; [done|]. split; [|done].
  by rewrite errors_Is_Errorf_NotExist.
Qed.

(** X20. Every handle [OpenFile] returns is unstaged at position 0 with
    the name, flags and permission of the call, and cost one [Stat]
    probe; it is marked new exactly when the probe failed, and then the
    flags carry create. *)
Theorem OpenFile_handle (nm : string) (fl pm : Z) w f w'
    (Hopen : OpenFile nm fl pm w = (Ret (inl f), w')) :
  tf f = None /\ pos f = 0 /\ name f = nm /\ flag f = fl /\ perm f = pm /\
  calls w' = calls w ++ [CStat nm] /\
  (isNew f = false <-> exists i, (api_Stat (backend w) nm).2 = inl i) /\
  (isNew f = true -> Z.land fl O_CREATE <> 0).
Proof.
  destruct (OpenFile_probe nm fl pm w) as (w1 & Hlog & _ & _ & _ & Hop).
  rewrite Hopen in Hop.
  destruct ((api_Stat (backend w) nm).2) as [i | e] eqn:Hprobe.
  - inversion Hop; subst. repeat split; eauto; try done.
  - destruct (errors_Is e ErrNotExist) eqn:Hnf; simpl in Hop;
      [|by inversion Hop].
    destruct (Z.land fl O_CREATE =? 0) eqn:Hc; inversion Hop; subst.
    simpl. repeat split; try done.
    + by intros [i Hi].
    + intros _. by apply Z.eqb_neq.
Qed.

(** ** Seek before staging *)

(** X21. On an unstaged handle of an existing object, [Seek] to the end
    and then to the current position both answer the remote size; the
    pair costs one [Stat] probe and the handle stays unstaged. *)
Theorem Seek_End_then_Current f w (i : apiInfo)
    (Htf : tf f = None)
    (Hprobe : (api_Stat (backend w) (name f)).2 = inl i)
    (Hsize : 0 <= ai_size i <= MaxInt64) :
  exists f1 w1,
    Seek f 0 SeekEnd w = (Ret (f1, (ai_size i, None)), w1) /\
    Seek f1 0 SeekCurrent w1 = (Ret (f1, (ai_size i, None)), w1) /\
    tf f1 = None /\
    calls w1 = calls w ++ [CStat (name f)].
Proof.
  unfold Seek, Size, stat, API_Stat, invoke, bind, ret. rewrite Htf. simpl.
  destruct (api_Stat (backend w) (name f)) as [b' r].
  simpl in Hprobe. subst r. simpl.
  assert (wrap64 (ai_size i + 0) = ai_size i) as Hw.
  { rewrite Z.add_0_r. apply wrap64_small. unfold MaxInt64 in *. lia. }
  assert ((ai_size i <? 0) = false) as Hlt by (apply Z.ltb_ge; lia).
  rewrite Hw, Hlt. do 2 eexists. split; [reflexivity|]. simpl.
  rewrite Htf. simpl. rewrite Hw, Hlt.
  destruct f; simpl in *; by subst.
Qed.

(** X22. Whatever [Seek] answers on an unstaged handle, for an offset
    that is an [int64]: a success leaves [pos] at the answer, which lies
    in [0, MaxInt64]; a failure is [ErrInvalid] with answer 0 and the
    handle untouched. *)
Theorem Seek_unstaged_result f w (offset whence : Z)
    f' (r : Z) (err : option error) w'
    (Htf : tf f = None)
    (Hoff : - 2 ^ 63 <= offset <= MaxInt64)
    (Hrun : Seek f offset whence w = (Ret (f', (r, err)), w')) :
  0 <= r <= MaxInt64 /\ tf f' = None /\
  (err = None -> pos f' = r) /\
  (err <> None -> err = Some ErrInvalid /\ r = 0 /\ f' = f).
Proof.
  unfold Seek, Size, stat, API_Stat, invoke, bind, ret in Hrun.
  rewrite Htf in Hrun.
  assert (forall z, (wrap64 z <? 0) = false -> 0 <= wrap64 z <= MaxInt64)
    as Hwrap.
  { intros z Hz. apply Z.ltb_ge in Hz. pose proof (wrap64_range z). lia. }
  destruct (whence =? SeekStart);
    [|destruct (whence =? SeekCurrent);
      [|destruct (whence =? SeekEnd);
        [destruct (api_Stat (backend w) (name f)) as [b' [i|e]]|]]];
    simpl in Hrun;
    match type of Hrun with
    | context [?a <? 0] => destruct (a <? 0) eqn:Hlt
    | _ => idtac
    end;
    inversion Hrun; subst; simpl;
    try (apply Hwrap in Hlt); try (apply Z.ltb_ge in Hlt);
    unfold MaxInt64 in *; repeat split; try done; try lia.
Qed.
(** ** Open *)

(** X23. [Open] (the [fs.FS] entry point) never creates: it returns a
    handle only for an object the probe found, read-only and unstaged,
    and closing that handle at once answers nil with nothing sent; the
    whole open-close costs the one [Stat] probe. *)
Theorem Open_then_Close (nm : string) w f w1
    (Hopen : Open nm w = (Ret (inl f), w1)) :
  (exists i, (api_Stat (backend w) nm).2 = inl i) /\
  f = mkFile false None 0 nm O_RDONLY 0 /\
  Close f w1 = (Ret (f, None), w1) /\
  calls w1 = calls w ++ [CStat nm].
Proof.
  unfold Open in Hopen.
  destruct (OpenFile_probe nm O_RDONLY 0 w) as (w' & Hlog & _ & _ & _ & Hop).
  rewrite Hopen in Hop.
  destruct ((api_Stat (backend w) nm).2) as [i | e].
  - inversion Hop; subst. split; [by exists i|]. by repeat split.
  - change (Z.land O_RDONLY O_CREATE =? 0) with true in Hop.
    rewrite orb_true_r in Hop. inversion Hop.
Qed.
End Further.


(** * The further properties at concrete inputs *)

Lemma Close_read_only_witness :
  exists f',
    Close handle_ro world0 = (Ret (f', None), world0) /\
    (forall t, tf handle_ro = Some t ->
       exists t', tf f' = Some t' /\
                  of_closed t' = true /\ of_removed t' = true).
Proof. exact (Close_read_only handle_ro world0 eq_refl eq_refl). Defined.

Lemma Close_releases_staging_witness :
  exists f' err w' t',
    Close handle_a_written (probed "/a.txt") = (Ret (f', err), w') /\
    tf f' = Some t' /\ of_closed t' = true /\ of_removed t' = true /\
    of_data t' = bytes "hello".
Proof.
  exact (Close_releases_staging handle_a_written staged_a (probed "/a.txt")
           eq_refl).
Defined.


Lemma Close_twice_witness :
  exists e2,
    Close handle_a_closed world_a_closed =
      (Ret (handle_a_closed, e2), world_a_closed) /\
    (isNew handle_a_written = true \/
     write_access (flag handle_a_written) = true ->
     Is e2 ErrNotExist = true).
Proof.
  exact (Close_twice handle_a_written staged_a (probed "/a.txt")
           handle_a_closed None world_a_closed eq_refl eq_refl).
Defined.

Lemma staged_handle_is_local_witness :
  (Read handle_rw 3 world0).2 = world0 /\
  (Write handle_rw (bytes "!") world0).2 = world0 /\
  (Seek handle_rw 0 SeekEnd world0).2 = world0.
Proof.
  exact (staged_handle_is_local handle_rw staged_rw world0 3 (bytes "!")
           0 SeekEnd eq_refl).
Defined.

Lemma staging_fetch_error_witness :
  exists w',
    Read handle_gone 3 world0 =
      (Ret (handle_gone, (-1, [], Some (Errorf "open" ErrNotExist))), w') /\
    Write handle_gone (bytes "!") world0 =
      (Ret (handle_gone, (-1, Some (Errorf "open" ErrNotExist))), w') /\
    calls w' = [CGetContent "/gone.txt"].
Proof.
  exact (staging_fetch_error handle_gone world0 3 (bytes "!")
           (Errorf "open" ErrNotExist)
           eq_refl eq_refl eq_refl eq_refl eq_refl eq_refl).
Defined.

Lemma staging_local_error_witness :
  exists ctx,
    Read handle_b 3 world_nodir =
      (Ret (handle_b,
            (-1, [], Some (Errorf ctx (ErrNew "read-only file system")))),
       world_nodir) /\
    Write handle_b (bytes "!") world_nodir =
      (Ret (handle_b,
            (-1, Some (Errorf ctx (ErrNew "read-only file system")))),
       world_nodir) /\
    ctx = "cannot create tmp dir".
Proof.
  exact (staging_local_error handle_b world_nodir 3 (bytes "!")
           (ErrNew "read-only file system") eq_refl (or_introl eq_refl)).
Defined.

Lemma Read_first_witness :
  exists f' w',
    Read handle_b 3 world0 = (Ret (f', (3, bytes "wor", None)), w') /\
    pos f' = 3 /\ in_sync f' = true /\
    calls w' = [CGetContent "/b.txt"].
Proof.
  assert ((0 < 3)%nat) as Hn by lia.
  assert (bytes "world" <> []) as Hc by done.
  assert (blen (bytes "world") <= MaxInt64) as Hsize by (by vm_compute).
  exact (Read_first handle_b world0 3 (bytes "world")
           eq_refl eq_refl eq_refl eq_refl eq_refl eq_refl eq_refl
           eq_refl eq_refl eq_refl Hn Hc Hsize).
Defined.

Lemma staging_refused_excl_witness :
  exists f' e,
    Write handle_excl (bytes "!") world0 = (Ret (f', (-1, Some e)), world0) /\
    Read handle_excl 3 world0 = (Ret (f', (-1, [], Some e)), world0) /\
    errors_Is e ErrExist = true /\ tf f' = None.
Proof.
  assert (Z.land (flag handle_excl) O_CREATE <> 0) as Hcreate by done.
  assert (Z.land (flag handle_excl) O_EXCL <> 0) as Hexcl by done.
  exact (staging_refused_excl handle_excl world0 3 (bytes "!")
           eq_refl eq_refl Hcreate Hexcl eq_refl eq_refl).
Defined.

Lemma Seek_staged_witness :
  pos handle_rw_at2 = 2 /\ 0 <= 2 <= MaxInt64 /\
  (@None error = None -> in_sync handle_rw_at2 = true) /\
  (@None error <> None -> 2 = 0 /\ tf handle_rw_at2 = Some staged_rw).
Proof.
  exact (Seek_staged handle_rw staged_rw world0 2 SeekStart
           handle_rw_at2 2 None world0 eq_refl eq_refl).
Defined.

Lemma sync_preserved_witness :
  (exists f' r, Read handle_rw 3 world0 = (Ret (f', r), world0) /\
                in_sync f' = true) /\
  (Z.land (of_flag staged_rw) O_APPEND = 0 ->
   exists f' r, Write handle_rw (bytes "!") world0 = (Ret (f', r), world0) /\
                in_sync f' = true).
Proof.
  assert (0 <= pos handle_rw) as Hpos by done.
  assert (blen (of_data staged_rw) <= MaxInt64) as Hsize by (by vm_compute).
  assert (pos handle_rw + blen (bytes "!") <= MaxInt64) as Hroom
    by (by vm_compute).
  exact (sync_preserved handle_rw staged_rw world0 3 (bytes "!")
           eq_refl eq_refl Hpos Hsize Hroom).
Defined.



Lemma overwrite_keeps_tail_witness :
  exists f1 w1 f2 w2,
    Write handle_b_rw (bytes "!") world0 = (Ret (f1, (1, None)), w1) /\
    Close f1 w1 = (Ret (f2, None), w2) /\
    calls w2 = [CGetContent "/b.txt"; CUpdate "/b.txt" (bytes "!orld")].
Proof.
  exact (overwrite_keeps_tail handle_b_rw world0 (bytes "!") (bytes "world")
           eq_refl eq_refl eq_refl eq_refl eq_refl eq_refl eq_refl
           eq_refl eq_refl eq_refl).
Defined.

Lemma append_extends_witness :
  exists f1 w1 f2 w2,
    Write handle_b_append (bytes "!") world0 = (Ret (f1, (1, None)), w1) /\
    pos f1 = 6 /\
    Close f1 w1 = (Ret (f2, None), w2) /\
    calls w2 = [CGetContent "/b.txt"; CUpdate "/b.txt" (bytes "world!")].
Proof.
  assert (Z.land (flag handle_b_append) O_APPEND <> 0) as Happ by done.
  assert (blen (bytes "world") + blen (bytes "!") <= MaxInt64) as Hsize
    by (by vm_compute).
  exact (append_extends handle_b_append world0 (bytes "!") (bytes "world")
           eq_refl eq_refl eq_refl Happ eq_refl eq_refl eq_refl eq_refl
           eq_refl Hsize).
Defined.

Lemma OpenFile_other_error_witness :
  exists err w',
    OpenFile "/a.txt" create_flag 420 world_down = (Ret (inr err), w') /\
    err = Errorf "error while opening file" (ErrNew "connection refused") /\
    errors_Is err ErrNotExist = false /\
    calls w' = [CStat "/a.txt"].
Proof.
  exact (OpenFile_other_error "/a.txt" create_flag 420 world_down
           (ErrNew "connection refused") eq_refl eq_refl).
Defined.

Lemma OpenFile_handle_witness :
  tf handle_b = None /\ pos handle_b = 0 /\ name handle_b = "/b.txt" /\
  flag handle_b = O_RDONLY /\ perm handle_b = 0 /\
  calls (probed "/b.txt") = calls world0 ++ [CStat "/b.txt"] /\
  (isNew handle_b = false <->
   exists i, (api_Stat (backend world0) "/b.txt").2 = inl i) /\
  (isNew handle_b = true -> Z.land O_RDONLY O_CREATE <> 0).
Proof.
  exact (OpenFile_handle "/b.txt" O_RDONLY 0 world0 handle_b
           (probed "/b.txt") eq_refl).
Defined.

Lemma Seek_End_then_Current_witness :
  exists f1 w1,
    Seek handle_b 0 SeekEnd world0 = (Ret (f1, (5, None)), w1) /\
    Seek f1 0 SeekCurrent w1 = (Ret (f1, (5, None)), w1) /\
    tf f1 = None /\
    calls w1 = [CStat "/b.txt"].
Proof.
  assert (0 <= ai_size (mem_info "/b.txt" (bytes "world")) <= MaxInt64)
    as Hsize by (by vm_compute).
  exact (Seek_End_then_Current handle_b world0
           (mem_info "/b.txt" (bytes "world")) eq_refl eq_refl Hsize).
Defined.

Lemma Seek_unstaged_result_witness :
  0 <= 0 <= MaxInt64 /\ tf handle_b = None /\
  (Some ErrInvalid = None -> pos handle_b = 0) /\
  (Some ErrInvalid <> None ->
   Some ErrInvalid = Some ErrInvalid /\ 0 = 0 /\ handle_b = handle_b).
Proof.
  assert (- 2 ^ 63 <= -1 <= MaxInt64) as Hoff by (by vm_compute).
  exact (Seek_unstaged_result handle_b world0 (-1) SeekStart
           handle_b 0 (Some ErrInvalid) world0 eq_refl Hoff eq_refl).
Defined.

Lemma Open_then_Close_witness :
  (exists i, (api_Stat (backend world0) "/b.txt").2 = inl i) /\
  handle_b = mkFile false None 0 "/b.txt" O_RDONLY 0 /\
  Close handle_b (probed "/b.txt") = (Ret (handle_b, None), probed "/b.txt") /\
  calls (probed "/b.txt") = calls world0 ++ [CStat "/b.txt"].
Proof.
  exact (Open_then_Close "/b.txt" world0 handle_b (probed "/b.txt") eq_refl).
Defined.
